(** * Lumbar disc herniation resorption calculator ([app.py])

    A shallow embedding of the Streamlit script [app.py] and the properties
    its specification states about it.

    The script is one top-to-bottom run per user interaction:
    - it resolves the decision threshold from [rf_thresholds.json],
    - loads the pickled pipeline through the cached [load_model],
    - renders the fifteen input widgets and assembles [X_input],
    - and, when the button is pressed, calls the pipeline and thresholds
      the returned probability.

    Layout of this file:
    - [Py]: the Python values the script manipulates (binary64 floats,
      exceptions, the objects [json.load] returns, [float()], [dict.get]);
    - [St]: the run of a Streamlit script as a state-and-exception monad
      over the session (widget values, [st.cache_resource] cache) and the
      trace of what the run did;
    - the script itself, definition by definition;
    - the theorems. *)

From Stdlib Require Import ZArith String List Bool Lia.
From Stdlib Require Import Floats.SpecFloat.
From stdpp Require Import base option list gmap strings.

Set Warnings "-register-all".

Local Open Scope string_scope.
Local Open Scope list_scope.
Local Open Scope Z_scope.

(* ===================================================================== *)
(** * Python values *)
(* ===================================================================== *)

Module Py.

(** ** [float]: IEEE 754 binary64 *)

Definition prec : Z := 53.
Definition emax : Z := 1024.

Abbreviation float := spec_float.

(** [float(n)] for an integer that fits: round to nearest, ties to even. *)
Definition float_of_Z (n : Z) : float := binary_normalize prec emax n 0 false.

(** The literal [n/10^k] written in decimal in the source ([0.5], [30.0],
    ...): the binary64 nearest to the quotient of two exactly
    representable integers. *)
Definition decimal (n : Z) (k : nat) : float :=
  SFdiv prec emax (float_of_Z n) (float_of_Z (10 ^ Z.of_nat k)).

Definition is_inf (f : float) : bool :=
  match f with S754_infinity _ => true | _ => false end.

Definition is_nan (f : float) : bool :=
  match f with S754_nan => true | _ => false end.

(** [a >= b], [a <= b] and [a == b] on floats: false as soon as one side
    is NaN. *)
Definition float_ge (a b : float) : bool := SFleb b a.
Definition float_le (a b : float) : bool := SFleb a b.
Definition float_eq (a b : float) : bool := SFeqb a b.

(** ** Exceptions

    An instance of a class derived from [Exception], with the text
    [str(e)] gives.  These are the values an [except Exception] clause
    binds. *)
Record exception := Exn { exn_class : string; exn_str : string }.

(** The outcome of evaluating an expression. *)
Inductive result (A : Type) : Type :=
| Ok (a : A)
| Raise (e : exception).
Arguments Ok {A} a.
Arguments Raise {A} e.

#[global] Instance result_ret : MRet result := fun _ a => Ok a.
#[global] Instance result_bind : MBind result := fun _ _ f m =>
  match m with Ok a => f a | Raise e => Raise e end.

(** [try: body / except Exception: handler] around a pure body. *)
Definition try_except {A} (body : result A) (handler : exception -> A) : A :=
  match body with Ok a => a | Raise e => handler e end.

(** ** The objects [json.load] returns

    [None], [bool], [int], [float] (with [NaN] and [Infinity], which the
    decoder accepts), [str], [list] and [dict] with string keys. *)
Inductive json : Type :=
| JNull
| JBool (b : bool)
| JInt (n : Z)
| JFloat (f : float)
| JStr (s : string)
| JList (l : list json)
| JDict (d : gmap string json).

Definition type_name (v : json) : string :=
  match v with
  | JNull => "NoneType"
  | JBool _ => "bool"
  | JInt _ => "int"
  | JFloat _ => "float"
  | JStr _ => "str"
  | JList _ => "list"
  | JDict _ => "dict"
  end.

(** [v.get(key, dflt)]: only a [dict] has the method. *)
Definition get (v : json) (key : string) (dflt : json) : result json :=
  match v with
  | JDict d => Ok (default dflt (d !! key))
  | _ => Raise (Exn "AttributeError"
                    ("'" +:+ type_name v +:+ "' object has no attribute 'get'"))
  end.

Section Float.
(** [float(s)] on a string follows Python's own grammar for float
    literals (signs, underscores, [inf], [nan], surrounding blanks,
    Unicode digits); the script does not depend on which strings it
    accepts, so the grammar is a parameter. *)
Variable float_of_str : string -> option float.

(** The builtin [float(v)]. *)
Definition to_float (v : json) : result float :=
  match v with
  | JFloat f => Ok f
  | JInt n =>
      let f := float_of_Z n in
      if is_inf f
      then Raise (Exn "OverflowError" "int too large to convert to float")
      else Ok f
  | JBool b => Ok (float_of_Z (if b then 1 else 0))
  | JStr s =>
      match float_of_str s with
      | Some f => Ok f
      | None => Raise (Exn "ValueError"
                           ("could not convert string to float: '" +:+ s +:+ "'"))
      end
  | JNull | JList _ | JDict _ =>
      Raise (Exn "TypeError"
                 ("float() argument must be a string or a real number, not '"
                    +:+ type_name v +:+ "'"))
  end.
End Float.

End Py.
Import Py.

(* ===================================================================== *)
(** * The threshold file *)
(* ===================================================================== *)

(** What [open(THR_PATH)] followed by [json.load(f)] can meet. *)
Inductive cfg_file : Type :=
| Absent                         (* [open] raises [FileNotFoundError] *)
| Unreadable (e : exception)     (* [open] or the read raises ([OSError], [UnicodeDecodeError]) *)
| InvalidJSON (msg : string)     (* [json.load] raises [JSONDecodeError] *)
| Parsed (v : json).             (* [json.load] returns [v] *)

Definition THR_PATH : string := "rf_thresholds.json".

Definition open_and_load (f : cfg_file) : result json :=
  match f with
  | Absent => Raise (Exn "FileNotFoundError"
                         ("[Errno 2] No such file or directory: '" +:+ THR_PATH +:+ "'"))
  | Unreadable e => Raise e
  | InvalidJSON msg => Raise (Exn "JSONDecodeError" msg)
  | Parsed v => Ok v
  end.

Definition DEFAULT_THR : float := decimal 5 1.

Definition threshold_Youden : string := "threshold_Youden".
Definition threshold_Chosen : string := "threshold_Chosen".

Definition source_Youden : string := "Youden (from rf_thresholds.json)".
Definition source_default : string := "Default 0.5 (threshold file missing)".

Section Threshold.
Variable float_of_str : string -> option float.

(** The body of the [try] (lines 19-24): the pair ([THRESHOLD],
    [thr_source]) it assigns when nothing raises.  The inner [get] is an
    argument of the outer one, so it is evaluated first. *)
Definition threshold_try (f : cfg_file) : result (float * string) :=
  thr_cfg ← open_and_load f;
  chosen ← get thr_cfg threshold_Chosen (JFloat DEFAULT_THR);
  picked ← get thr_cfg threshold_Youden chosen;
  THRESHOLD ← to_float float_of_str picked;
  mret (THRESHOLD, source_Youden).

(** Lines 18-27. *)
Definition resolve_threshold (f : cfg_file) : float * string :=
  try_except (threshold_try f) (fun _ => (DEFAULT_THR, source_default)).

Definition THRESHOLD_of (f : cfg_file) : float := fst (resolve_threshold f).
Definition thr_source_of (f : cfg_file) : string := snd (resolve_threshold f).
End Threshold.

(* ===================================================================== *)
(** * A run of a Streamlit script *)
(* ===================================================================== *)

Module St.

(** The text of an f-string: literal parts and formatted holes. *)
Inductive piece : Type :=
| Txt (s : string)
| Num (f : float) (spec : string)     (* [{f:spec}] *)
| Err (e : exception).                (* [{e}] *)
Definition text : Type := list piece.

(** A cell of the one-row table handed to the pipeline. *)
Inductive value : Type :=
| VInt (n : Z)
| VFloat (f : float)
| VStr (s : string).

(** [pandas.DataFrame]: column labels and rows; a cell no record gives
    is missing ([None], pandas' NaN). *)
Record DataFrame : Type := { columns : list string; rows : list (list (option value)) }.

(** [pd.DataFrame(records, columns=cols)]: the columns are [cols], in
    that order, and each record is read at those labels. *)
Definition DataFrame_of (records : list (gmap string value)) (cols : list string)
  : DataFrame :=
  {| columns := cols; rows := map (fun r => map (fun c => r !! c) cols) records |}.

(** The fitted pipeline as the script uses it:
    [model.predict_proba(X)[:, 1][0]], a float or an exception. *)
Definition pipeline : Type := DataFrame -> result float.

(** What a run puts on the page. *)
Inductive element : Type :=
| page_config (page_title layout : string)
| caption (t : text)
| error (t : text)
| info (t : text)
| success (t : text)
| title (s : string)
| subheader (s : string)
| write (s : string)
| divider
| columns_ (n : nat)
| selectbox (label : string) (options : list value) (index : nat)
| number_input (label : string) (min_value max_value dflt step : value)
| dataframe (X : DataFrame)
| button (label : string).

(** What a run does, in order. *)
Inductive event : Type :=
| Show (e : element)
| Load (path : string)          (* a call of [joblib.load] *)
| Predict (X : DataFrame).      (* a call of [model.predict_proba] *)

(** A widget the user can act on. *)
Definition is_input (ev : event) : bool :=
  match ev with
  | Show (selectbox _ _ _) | Show (number_input _ _ _ _ _) | Show (button _) => true
  | _ => false
  end.
Definition is_load (ev : event) : bool :=
  match ev with Load _ => true | _ => false end.
Definition is_predict (ev : event) : bool :=
  match ev with Predict _ => true | _ => false end.
Definition is_error (ev : event) : bool :=
  match ev with Show (error _) => true | _ => false end.

(** How a run, or a part of it, ends.  [st.stop()] raises Streamlit's
    [StopException], which is not an [Exception]: no [except Exception]
    clause catches it and the run ends there. *)
Inductive outcome (A : Type) : Type :=
| Returned (a : A)
| Raised (e : exception)
| Stopped.
Arguments Returned {A} a.
Arguments Raised {A} e.
Arguments Stopped {A}.

Section Script.
(** [W]: the widget values Streamlit keeps for the session. *)
Variable W : Type.

(** What outlives a run: the widget values and the [st.cache_resource]
    entry of [load_model] (its only argument is the constant
    [MODEL_PATH], so there is one entry). *)
Record session : Type := { widgets : W; cache : option pipeline }.

Definition script (A : Type) : Type := session -> outcome A * session * list event.

Definition ret {A} (a : A) : script A := fun s => (Returned a, s, []).

Definition bind {A B} (m : script A) (k : A -> script B) : script B := fun s =>
  match m s with
  | (Returned a, s1, t1) => let '(o, s2, t2) := k a s1 in (o, s2, t1 ++ t2)
  | (Raised e, s1, t1) => (Raised e, s1, t1)
  | (Stopped, s1, t1) => (Stopped, s1, t1)
  end.

Definition emit (ev : event) : script unit := fun s => (Returned tt, s, [ev]).
Definition show (e : element) : script unit := emit (Show e).

(** [st.stop()]. *)
Definition stop {A} : script A := fun s => (Stopped, s, []).

Definition raise {A} (e : exception) : script A := fun s => (Raised e, s, []).

Definition lift {A} (r : result A) : script A :=
  match r with Ok a => ret a | Raise e => raise e end.

(** The current value of a widget. *)
Definition widget {A} (get : W -> A) : script A := fun s => (Returned (get (widgets s)), s, []).

(** [try: body / except Exception as e: handler e]. *)
Definition try_except {A} (body : script A) (handler : exception -> script A)
  : script A := fun s =>
  match body s with
  | (Raised e, s1, t1) => let '(o, s2, t2) := handler e s1 in (o, s2, t1 ++ t2)
  | r => r
  end.

(** [@st.cache_resource]: the body runs on a miss only, and only a
    value it returns is stored. *)
Definition cache_resource (body : script pipeline) : script pipeline := fun s =>
  match cache s with
  | Some m => (Returned m, s, [])
  | None =>
      match body s with
      | (Returned m, s1, t1) => (Returned m, {| widgets := widgets s1; cache := Some m |}, t1)
      | r => r
      end
  end.
End Script.

Arguments widgets {W} s.
Arguments cache {W} s.
Arguments ret {W A} a.
Arguments bind {W A B} m k.
Arguments emit {W} ev.
Arguments show {W} e.
Arguments stop {W A}.
Arguments raise {W A} e.
Arguments lift {W A} r.
Arguments widget {W A} get.
Arguments try_except {W A} body handler.
Arguments cache_resource {W} body.

#[global] Instance script_ret {W} : MRet (script W) := fun _ a => ret a.
#[global] Instance script_bind {W} : MBind (script W) := fun _ _ k m => bind m k.

End St.
Import St.

(* ===================================================================== *)
(** * The script *)
(* ===================================================================== *)

(** The file name of the pickled pipeline, in the script's directory. *)
Definition MODEL_PATH : string := "best_model_random_forest.pkl".

(** ** The declared domains ([CATS], [NUMS]) and the schema ([FEATURES]) *)

Definition CATS_Gender : list Z := [0; 1].
Definition CATS_Herniated_Level : list string := ["L2/3"; "L3/4"; "L4/5"; "L5/S1"].
Definition CATS_Priffmann : list Z := [1; 2; 3; 4; 5].
Definition CATS_Iwabuchi : list Z := [1; 2; 3; 4; 5].
Definition CATS_Modic : list Z := [0; 1; 2].
Definition CATS_Komori : list Z := [1; 2; 3; 4].
Definition CATS_MSU : list Z := [1; 2; 3].
Definition CATS_Spinal_canal_stenosis : list Z := [0; 1].
Definition CATS_Bull_eye : list Z := [1; 2; 3].

(** Each entry of [NUMS] is (minimum, maximum, default). *)
Definition NUMS_Age : Z * Z * Z := (18, 90, 50).
Definition NUMS_SS : float * float * float := (decimal 0 1, decimal 600 1, decimal 300 1).
Definition NUMS_Months_of_Review : Z * Z * Z := (1, 36, 6).
Definition NUMS_Initial_volume : float * float * float :=
  (decimal 0 1, decimal 500 1, decimal 40 1).
Definition NUMS_Upper_VB_Posterior_Height_CM : float * float * float :=
  (decimal 10 1, decimal 50 1, decimal 25 1).
Definition NUMS_Lower_VB_Posterior_Height_CM : float * float * float :=
  (decimal 10 1, decimal 50 1, decimal 24 1).

Definition FEATURES : list string :=
  [ "Age"; "Gender"; "Herniated_Level"; "Priffmann"; "Iwabuchi"; "Modic"; "Komori"; "MSU";
    "Spinal_canal_stenosis"; "Bull_eye"; "SS";
    "Upper_VB_Posterior_Height_CM"; "Lower_VB_Posterior_Height_CM";
    "Initial_volume"; "Months_of_Review" ].

(** ** The widget values *)

(** One value per widget, named as the variable the script binds it to. *)
Record form : Type := {
  Gender : Z;
  Herniated_Level : string;
  Priffmann : Z;
  Iwabuchi : Z;
  Modic : Z;
  Komori : Z;
  MSU : Z;
  Spinal_canal_stenosis : Z;
  Bull_eye : Z;
  Age : Z;
  SS : float;
  Months_of_Review : Z;
  Initial_volume : float;
  Upper_VB_Posterior_Height_CM : float;
  Lower_VB_Posterior_Height_CM : float
}.

(** The values Streamlit hands back come from the widget's options or
    range: the declared domains. *)
Definition mem_Z (x : Z) (l : list Z) : bool := existsb (Z.eqb x) l.
Definition mem_str (x : string) (l : list string) : bool := existsb (String.eqb x) l.
Definition between_Z (r : Z * Z * Z) (x : Z) : bool :=
  let '(lo, hi, _) := r in (lo <=? x) && (x <=? hi).
Definition between_float (r : float * float * float) (x : float) : bool :=
  let '(lo, hi, _) := r in float_le lo x && float_le x hi.

Definition in_domain (f : form) : bool :=
  mem_Z (Gender f) CATS_Gender
  && mem_str (Herniated_Level f) CATS_Herniated_Level
  && mem_Z (Priffmann f) CATS_Priffmann
  && mem_Z (Iwabuchi f) CATS_Iwabuchi
  && mem_Z (Modic f) CATS_Modic
  && mem_Z (Komori f) CATS_Komori
  && mem_Z (MSU f) CATS_MSU
  && mem_Z (Spinal_canal_stenosis f) CATS_Spinal_canal_stenosis
  && mem_Z (Bull_eye f) CATS_Bull_eye
  && between_Z NUMS_Age (Age f)
  && between_float NUMS_SS (SS f)
  && between_Z NUMS_Months_of_Review (Months_of_Review f)
  && between_float NUMS_Initial_volume (Initial_volume f)
  && between_float NUMS_Upper_VB_Posterior_Height_CM (Upper_VB_Posterior_Height_CM f)
  && between_float NUMS_Lower_VB_Posterior_Height_CM (Lower_VB_Posterior_Height_CM f).

(** The option a select box starts on ([index=]) and the value a number
    input starts on (the third component of its [NUMS] entry). *)
Definition option_at {A} (dflt : A) (options : list A) (index : nat) : A :=
  nth index options dflt.
Definition start_value {A} (r : A * A * A) : A := snd r.

(** The widget values of a fresh session. *)
Definition initial_form : form := {|
  Gender := option_at 0 CATS_Gender 1;
  Herniated_Level := option_at "" CATS_Herniated_Level 2;
  Priffmann := option_at 0 CATS_Priffmann 1;
  Iwabuchi := option_at 0 CATS_Iwabuchi 1;
  Modic := option_at 0 CATS_Modic 0;
  Komori := option_at 0 CATS_Komori 1;
  MSU := option_at 0 CATS_MSU 1;
  Spinal_canal_stenosis := option_at 0 CATS_Spinal_canal_stenosis 0;
  Bull_eye := option_at 0 CATS_Bull_eye 0;
  Age := start_value NUMS_Age;
  SS := start_value NUMS_SS;
  Months_of_Review := start_value NUMS_Months_of_Review;
  Initial_volume := start_value NUMS_Initial_volume;
  Upper_VB_Posterior_Height_CM := start_value NUMS_Upper_VB_Posterior_Height_CM;
  Lower_VB_Posterior_Height_CM := start_value NUMS_Lower_VB_Posterior_Height_CM
|}.

(** ** Record assembly (lines 110-130) *)

(** [int(x)] of an [int] and [float(x)] of a [float] return [x]. *)
Definition int (n : Z) : Z := n.
Definition float_ (x : float) : float := x.

(** Line 111. *)
Definition gender_label (Gender : Z) : string :=
  if int Gender =? 1 then "Male" else "Female".

(** A [dict] display: the items are inserted left to right. *)
Definition dict_of (items : list (string * value)) : gmap string value :=
  foldl (fun d kv => <[ kv.1 := kv.2 ]> d) ∅ items.

(** Lines 113-129. *)
Definition row (f : form) : gmap string value :=
  dict_of
    [ ("Age", VInt (Age f));
      ("Gender", VStr (gender_label (Gender f)));
      ("Herniated_Level", VStr (Herniated_Level f));
      ("Priffmann", VInt (int (Priffmann f)));
      ("Iwabuchi", VInt (int (Iwabuchi f)));
      ("Modic", VInt (int (Modic f)));
      ("Komori", VInt (int (Komori f)));
      ("MSU", VInt (int (MSU f)));
      ("Spinal_canal_stenosis", VInt (int (Spinal_canal_stenosis f)));
      ("Bull_eye", VInt (int (Bull_eye f)));
      ("SS", VFloat (float_ (SS f)));
      ("Upper_VB_Posterior_Height_CM", VFloat (float_ (Upper_VB_Posterior_Height_CM f)));
      ("Lower_VB_Posterior_Height_CM", VFloat (float_ (Lower_VB_Posterior_Height_CM f)));
      ("Initial_volume", VFloat (float_ (Initial_volume f)));
      ("Months_of_Review", VInt (int (Months_of_Review f))) ].

(** Line 130. *)
Definition X_input (f : form) : DataFrame := DataFrame_of [row f] FEATURES.

(** ** Classification (lines 140-141) *)

Definition Resorption : string := "Resorption (1)".
Definition Non_resorption : string := "Non-resorption (0)".

(** [int(proba >= THRESHOLD)]. *)
Definition pred_cls (proba THRESHOLD : float) : Z :=
  if float_ge proba THRESHOLD then 1 else 0.

Definition label (pred_cls : Z) : string :=
  if pred_cls =? 1 then Resorption else Non_resorption.

(** ** What a run finds outside the session *)

Record env : Type := {
  thr_file : cfg_file;                       (* [rf_thresholds.json] *)
  path_exists : string -> bool;              (* [pkl_path.exists()] *)
  joblib_load : string -> result pipeline;   (* [joblib.load(str(pkl_path))] *)
  clicked : bool                             (* the run was started by the button *)
}.

Abbreviation script := (St.script form).

(** ** Widgets: the element is shown and the session's value returned *)

Definition st_selectbox_int (label : string) (options : list Z) (index : nat)
    (current : form -> Z) : script Z :=
  show (selectbox label (map VInt options) index);; widget current.

Definition st_selectbox_str (label : string) (options : list string) (index : nat)
    (current : form -> string) : script string :=
  show (selectbox label (map VStr options) index);; widget current.

Definition st_number_input_int (label : string) (r : Z * Z * Z) (step : Z)
    (current : form -> Z) : script Z :=
  let '(lo, hi, v) := r in
  show (number_input label (VInt (int lo)) (VInt (int hi)) (VInt (int v)) (VInt step));;
  widget current.

Definition st_number_input_float (label : string) (r : float * float * float)
    (step : float) (current : form -> float) : script float :=
  let '(lo, hi, v) := r in
  show (number_input label (VFloat (float_ lo)) (VFloat (float_ hi)) (VFloat (float_ v))
          (VFloat step));;
  widget current.

Definition st_button (label : string) (pressed : bool) : script bool :=
  show (button label);; mret pressed.

(** ** [load_model] (lines 31-40) *)

Definition load_model_body (w : env) (pkl_path : string) : script pipeline :=
  (if negb (path_exists w pkl_path)
   then show (error [Txt "Model file not found: "; Txt pkl_path]);; stop
   else mret tt);;
  try_except
    (emit (Load pkl_path);; lift (joblib_load w pkl_path))
    (fun e => show (error [Txt "Model loading failed: "; Err e]);; stop).

Definition load_model (w : env) (pkl_path : string) : script pipeline :=
  cache_resource (load_model_body w pkl_path).

(** ** The button's branch (lines 138-145) *)

Definition predict (model : pipeline) (X : DataFrame) (THRESHOLD : float) : script unit :=
  try_except
    (proba ← (emit (Predict X);; lift (model X));
     let pred_cls := pred_cls proba THRESHOLD in
     let label := label pred_cls in
     show (success [Txt "Predicted probability: "; Num proba ".2%";
                    Txt " ｜ Threshold: "; Num THRESHOLD ".4f";
                    Txt " ｜ Classification: "; Txt label]))
    (fun e =>
       show (error [Txt "Prediction failed: "; Err e]);;
       show (info [Txt "Please check that the feature names and values match the training set. The pipeline already includes OHE and scaling."])).

Section App.
Variable float_of_str : string -> option float.

(** ** The whole script, top to bottom

    The [with col:] blocks only place the widgets on the page; the trace
    records the widgets in the order the script creates them. *)

Definition app (w : env) : script unit :=
  show (page_config
          "Lumbar Disc Herniation Resorption Probability Calculator (Random Forest)"
          "centered");;
  let '(THRESHOLD, thr_source) := resolve_threshold float_of_str (thr_file w) in
  show (caption [Txt "Current classification threshold: "; Num THRESHOLD ".4f";
                 Txt "  —  "; Txt thr_source]);;
  model ← load_model w MODEL_PATH;
  show (title "Prediction of Lumbar Disc Herniation Resorption (Random Forest)");;
  show (caption [Txt "⚠️ For research and decision support only, not for clinical use"]);;
  show (info [Txt "Model successfully loaded: "; Txt MODEL_PATH]);;
  show (subheader "Patient Characteristics Input");;
  show (columns_ 2);;
  Gender ← st_selectbox_int "Gender (Female=0, Male=1)" CATS_Gender 1 Gender;
  Herniated_Level ← st_selectbox_str "Herniated_Level" CATS_Herniated_Level 2 Herniated_Level;
  Priffmann ← st_selectbox_int "Priffmann" CATS_Priffmann 1 Priffmann;
  Iwabuchi ← st_selectbox_int "Iwabuchi" CATS_Iwabuchi 1 Iwabuchi;
  Modic ← st_selectbox_int "Modic" CATS_Modic 0 Modic;
  Komori ← st_selectbox_int "Komori" CATS_Komori 1 Komori;
  MSU ← st_selectbox_int "MSU" CATS_MSU 1 MSU;
  Spinal_canal_stenosis ←
    st_selectbox_int "Spinal_canal_stenosis (0=No, 1=Yes)" CATS_Spinal_canal_stenosis 0
      Spinal_canal_stenosis;
  Bull_eye ← st_selectbox_int "Bull_eye" CATS_Bull_eye 0 Bull_eye;
  show (columns_ 2);;
  Age ← st_number_input_int "Age" NUMS_Age 1 Age;
  SS ← st_number_input_float "SS" NUMS_SS (decimal 5 1) SS;
  Months_of_Review ←
    st_number_input_int "Months_of_Review" NUMS_Months_of_Review 1 Months_of_Review;
  Initial_volume ←
    st_number_input_float "Initial_volume (cm³)" NUMS_Initial_volume (decimal 1 1)
      Initial_volume;
  Upper_VB_Posterior_Height_CM ←
    st_number_input_float "Upper_VB_Posterior_Height_CM" NUMS_Upper_VB_Posterior_Height_CM
      (decimal 1 1) Upper_VB_Posterior_Height_CM;
  Lower_VB_Posterior_Height_CM ←
    st_number_input_float "Lower_VB_Posterior_Height_CM" NUMS_Lower_VB_Posterior_Height_CM
      (decimal 1 1) Lower_VB_Posterior_Height_CM;
  let X_input :=
    X_input {| Gender := Gender; Herniated_Level := Herniated_Level;
               Priffmann := Priffmann; Iwabuchi := Iwabuchi; Modic := Modic;
               Komori := Komori; MSU := MSU;
               Spinal_canal_stenosis := Spinal_canal_stenosis; Bull_eye := Bull_eye;
               Age := Age; SS := SS; Months_of_Review := Months_of_Review;
               Initial_volume := Initial_volume;
               Upper_VB_Posterior_Height_CM := Upper_VB_Posterior_Height_CM;
               Lower_VB_Posterior_Height_CM := Lower_VB_Posterior_Height_CM |} in
  show divider;;
  show (write "**Current Input Preview:**");;
  show (dataframe X_input);;
  show divider;;
  pressed ← st_button "Predict Resorption Probability" (clicked w);
  if (pressed : bool) then predict model X_input THRESHOLD else mret tt.

(** The parts of what a run returns. *)
Definition outcome_of {A} (r : outcome A * session form * list event) : outcome A := r.1.1.
Definition session_of {A} (r : outcome A * session form * list event) : session form := r.1.2.
Definition events_of {A} (r : outcome A * session form * list event) : list event := r.2.

End App.

(** ** Vocabulary of the statements *)

(** The closed interval [[0, 1]] on floats. *)
Definition in_unit_interval (t : float) : bool :=
  float_le (float_of_Z 0) t && float_le t (float_of_Z 1).

(** The value the threshold file stores for the resolver: the entry
    [threshold_Youden] when the file is a JSON object that has it, else its
    entry [threshold_Chosen]. *)
Definition stored_threshold (f : cfg_file) : option json :=
  match f with
  | Parsed (JDict d) =>
      match d !! threshold_Youden with
      | Some v => Some v
      | None => d !! threshold_Chosen
      end
  | _ => None
  end.

(** A [float_of_str] that accepts no string, for statements about files
    that hold no string. *)
Definition no_str : string -> option float := fun _ => None.

(** What the run has put on the page when it reaches [load_model]. *)
Definition page_head (float_of_str : string -> option float) (w : env) : list event :=
  [ Show (page_config
            "Lumbar Disc Herniation Resorption Probability Calculator (Random Forest)"
            "centered");
    Show (caption [Txt "Current classification threshold: ";
                   Num (THRESHOLD_of float_of_str (thr_file w)) ".4f";
                   Txt "  —  "; Txt (thr_source_of float_of_str (thr_file w))]) ].

(** What the run puts on the page between [load_model] and the button's
    branch: the titles, the nine select boxes, the six number inputs, the
    preview of the record and the button. *)
Definition inputs_page (f : form) : list event :=
  [ Show (title "Prediction of Lumbar Disc Herniation Resorption (Random Forest)");
    Show (caption [Txt "⚠️ For research and decision support only, not for clinical use"]);
    Show (info [Txt "Model successfully loaded: "; Txt MODEL_PATH]);
    Show (subheader "Patient Characteristics Input");
    Show (columns_ 2);
    Show (selectbox "Gender (Female=0, Male=1)" (map VInt CATS_Gender) 1);
    Show (selectbox "Herniated_Level" (map VStr CATS_Herniated_Level) 2);
    Show (selectbox "Priffmann" (map VInt CATS_Priffmann) 1);
    Show (selectbox "Iwabuchi" (map VInt CATS_Iwabuchi) 1);
    Show (selectbox "Modic" (map VInt CATS_Modic) 0);
    Show (selectbox "Komori" (map VInt CATS_Komori) 1);
    Show (selectbox "MSU" (map VInt CATS_MSU) 1);
    Show (selectbox "Spinal_canal_stenosis (0=No, 1=Yes)"
            (map VInt CATS_Spinal_canal_stenosis) 0);
    Show (selectbox "Bull_eye" (map VInt CATS_Bull_eye) 0);
    Show (columns_ 2);
    Show (number_input "Age" (VInt 18) (VInt 90) (VInt 50) (VInt 1));
    Show (number_input "SS" (VFloat (decimal 0 1)) (VFloat (decimal 600 1))
            (VFloat (decimal 300 1)) (VFloat (decimal 5 1)));
    Show (number_input "Months_of_Review" (VInt 1) (VInt 36) (VInt 6) (VInt 1));
    Show (number_input "Initial_volume (cm³)" (VFloat (decimal 0 1))
            (VFloat (decimal 500 1)) (VFloat (decimal 40 1)) (VFloat (decimal 1 1)));
    Show (number_input "Upper_VB_Posterior_Height_CM" (VFloat (decimal 10 1))
            (VFloat (decimal 50 1)) (VFloat (decimal 25 1)) (VFloat (decimal 1 1)));
    Show (number_input "Lower_VB_Posterior_Height_CM" (VFloat (decimal 10 1))
            (VFloat (decimal 50 1)) (VFloat (decimal 24 1)) (VFloat (decimal 1 1)));
    Show divider;
    Show (write "**Current Input Preview:**");
    Show (dataframe (X_input f));
    Show divider;
    Show (button "Predict Resorption Probability") ].

(** The scenario of the specification's example. *)
Definition example_form : form := {|
  Age := 50; Gender := 1; Herniated_Level := "L4/5"; Priffmann := 2; Iwabuchi := 2;
  Modic := 0; Komori := 2; MSU := 2; Spinal_canal_stenosis := 0; Bull_eye := 1;
  SS := decimal 300 1;
  Upper_VB_Posterior_Height_CM := decimal 25 1;
  Lower_VB_Posterior_Height_CM := decimal 24 1;
  Initial_volume := decimal 40 1; Months_of_Review := 6
|}.

(** A disk with the model file and a threshold file that stores a Youden
    value of 0.47; the pipeline returns 0.62 for every record. *)
Definition example_env (pressed : bool) : env := {|
  thr_file := Parsed (JDict {[ threshold_Youden := JFloat (decimal 47 2) ]});
  path_exists := fun _ => true;
  joblib_load := fun _ => Ok (fun _ => Ok (decimal 62 2));
  clicked := pressed
|}.

(** A pipeline that rejects every record. *)
Definition failing_pipeline : pipeline :=
  fun _ => Raise (Exn "ValueError" "columns are missing: {'Age'}").

(* ===================================================================== *)
(** * Floats *)
(* ===================================================================== *)

Lemma DEFAULT_THR_is_half : DEFAULT_THR = S754_finite false 4503599627370496 (-53).
Proof. reflexivity. Qed.

Lemma SFcompare_Eq_sym (a b : float) :
  SFcompare a b = Some Eq -> SFcompare b a = Some Eq.
Proof.
  destruct a as [sa|sa| |sa ma ea], b as [sb|sb| |sb mb eb]; simpl; try done;
    try (destruct sa, sb; done); try (destruct sa; done); try (destruct sb; done).
  destruct sa, sb; try done.
  - destruct (Z.compare ea eb) eqn:He; try done.
    apply Z.compare_eq in He; subst eb. intros H.
    assert (Hm : Pos.compare ma mb = Eq).
    { unfold Pos.compare. destruct (Pos.compare_cont Eq ma mb); simpl in H; congruence. }
    apply Pos.compare_eq in Hm; subst mb.
    rewrite Z.compare_refl. fold (Pos.compare ma ma). rewrite Pos.compare_refl. done.
  - destruct (Z.compare ea eb) eqn:He; try done.
    apply Z.compare_eq in He; subst eb. intros H.
    assert (Hm : Pos.compare ma mb = Eq) by (unfold Pos.compare; congruence).
    apply Pos.compare_eq in Hm; subst mb.
    rewrite Z.compare_refl. fold (Pos.compare ma ma). rewrite Pos.compare_refl. done.
Qed.

Lemma float_eq_ge (a b : float) : float_eq a b = true -> float_ge a b = true.
Proof.
  unfold float_eq, float_ge, SFeqb, SFleb. intros H.
  destruct (SFcompare a b) as [[]|] eqn:Hc; try done.
  by rewrite (SFcompare_Eq_sym _ _ Hc).
Qed.

(* ===================================================================== *)
(** * Threshold resolution *)
(* ===================================================================== *)

Section ThresholdFacts.
Variable float_of_str : string -> option float.
#[local] Abbreviation resolve := (resolve_threshold float_of_str).

Lemma Youden_ne_Chosen : threshold_Youden <> threshold_Chosen.
Proof. discriminate. Qed.

Lemma Chosen_ne_Youden : threshold_Chosen <> threshold_Youden.
Proof. discriminate. Qed.

(** The [try] reads a JSON object at two keys and converts what it finds. *)
Lemma threshold_try_dict (d : gmap string json) :
  threshold_try float_of_str (Parsed (JDict d)) =
    (t ← to_float float_of_str
           (default (default (JFloat DEFAULT_THR) (d !! threshold_Chosen))
                    (d !! threshold_Youden));
     mret (t, source_Youden)).
Proof. reflexivity. Qed.

(** Anything but a JSON object has no [get]: the [try] raises. *)
Lemma threshold_try_not_dict (v : json) :
  (forall d, v <> JDict d) ->
  exists e, threshold_try float_of_str (Parsed v) = Raise e.
Proof. intros Hv. destruct v; try (eexists; reflexivity). by destruct (Hv d). Qed.

Lemma resolve_raise (f : cfg_file) (e : exception) :
  threshold_try float_of_str f = Raise e ->
  resolve f = (DEFAULT_THR, source_default).
Proof. unfold resolve_threshold. by intros ->. Qed.

Lemma resolve_ok (f : cfg_file) (t : float) (src : string) :
  threshold_try float_of_str f = Ok (t, src) ->
  resolve f = (t, source_Youden) /\ src = source_Youden.
Proof.
  unfold resolve_threshold. intros H. rewrite H. simpl.
  destruct f as [| |msg|v]; try done.
  destruct v; try done. rewrite threshold_try_dict in H.
  destruct (to_float _ _); simpl in H; [|done]. by inversion H.
Qed.

(** Every outcome of the resolver: the default after an exception, the
    default because neither key is there, or the conversion of the
    stored value. *)
Lemma resolve_cases (f : cfg_file) :
  (exists e, threshold_try float_of_str f = Raise e
             /\ resolve f = (DEFAULT_THR, source_default))
  \/ (stored_threshold f = None /\ resolve f = (DEFAULT_THR, source_Youden))
  \/ (exists v t, stored_threshold f = Some v /\ to_float float_of_str v = Ok t
                  /\ resolve f = (t, source_Youden)).
Proof.
  destruct (threshold_try float_of_str f) as [[t src]|e] eqn:Htry.
  - right. destruct (resolve_ok _ _ _ Htry) as [Hres _].
    destruct f as [| |msg|v]; try done. destruct v; try done.
    rewrite threshold_try_dict in Htry. simpl.
    destruct (d !! threshold_Youden) as [vy|] eqn:Hy; simpl in Htry.
    + right. exists vy, t. destruct (to_float _ vy); simpl in Htry; [|done].
      inversion Htry; subst. done.
    + destruct (d !! threshold_Chosen) as [vc|] eqn:Hc; simpl in Htry.
      * right. exists vc, t. destruct (to_float _ vc); simpl in Htry; [|done].
        inversion Htry; subst. done.
      * left. split; [done|]. inversion Htry; subst. done.
  - left. exists e. split; [done|]. by apply resolve_raise with e.
Qed.

End ThresholdFacts.

(** C2.  Youden first, then chosen, then the default.  A file that holds
    only a Youden value resolves to that value, and so does any file that
    holds one, whatever else it holds; a file that holds only a chosen value
    resolves to it, and so does any file with a chosen value and no Youden
    entry; a file with neither key, an absent file and a file that is not
    valid JSON resolve to the default, which is exactly 0.5. *)
Theorem C2_threshold_priority
    (float_of_str : string -> option float) (d : gmap string json) (y c : float) :
  THRESHOLD_of float_of_str (Parsed (JDict {[ threshold_Youden := JFloat y ]})) = y
  /\ THRESHOLD_of float_of_str (Parsed (JDict {[ threshold_Chosen := JFloat c ]})) = c
  /\ THRESHOLD_of float_of_str (Parsed (JDict (<[ threshold_Youden := JFloat y ]> d))) = y
  /\ THRESHOLD_of float_of_str
       (Parsed (JDict (<[ threshold_Chosen := JFloat c ]> (delete threshold_Youden d)))) = c
  /\ THRESHOLD_of float_of_str
       (Parsed (JDict (delete threshold_Youden (delete threshold_Chosen d)))) = DEFAULT_THR
  /\ THRESHOLD_of float_of_str Absent = DEFAULT_THR
  /\ (forall msg, THRESHOLD_of float_of_str (InvalidJSON msg) = DEFAULT_THR)
  /\ DEFAULT_THR = S754_finite false 4503599627370496 (-53).
Proof.
  unfold THRESHOLD_of, resolve_threshold. rewrite !threshold_try_dict.
  split; [by rewrite lookup_singleton_eq|].
  split.
  { rewrite (lookup_singleton_ne threshold_Chosen threshold_Youden)
      by apply Chosen_ne_Youden.
    by rewrite lookup_singleton_eq. }
  split; [by rewrite lookup_insert_eq|].
  split.
  { rewrite (lookup_insert_ne _ threshold_Chosen threshold_Youden)
      by apply Chosen_ne_Youden.
    rewrite lookup_delete_eq. simpl.
    by rewrite lookup_insert_eq. }
  split.
  { rewrite lookup_delete_eq. simpl.
    rewrite (lookup_delete_ne _ threshold_Youden threshold_Chosen)
      by apply Youden_ne_Chosen.
    by rewrite lookup_delete_eq. }
  done.
Qed.

(** C7, amended.  The resolver neither validates nor clamps what it reads.
    The resolved threshold lies in [[0, 1]] whenever the value stored in
    the file (under [threshold_Youden], or under [threshold_Chosen] when the
    first key is absent) converts to a float in [[0, 1]]; every fallback
    gives 0.5, which is in the interval. *)
Theorem C7_threshold_in_unit_interval_when_stored_value_is
    (float_of_str : string -> option float) (f : cfg_file)
    (Hstored : forall v t, stored_threshold f = Some v ->
                           to_float float_of_str v = Ok t ->
                           in_unit_interval t = true) :
  in_unit_interval (THRESHOLD_of float_of_str f) = true.
Proof.
  unfold THRESHOLD_of.
  destruct (resolve_cases float_of_str f)
    as [(e & _ & ->) | [(_ & ->) | (v & t & Hv & Ht & ->)]]; simpl.
  - reflexivity.
  - reflexivity.
  - by apply Hstored with v.
Qed.

(** C7, amended, at a file that stores a Youden value of 0.47. *)
Lemma C7_threshold_in_unit_interval_witness :
  in_unit_interval
    (THRESHOLD_of no_str (Parsed (JDict {[ threshold_Youden := JFloat (decimal 47 2) ]})))
  = true.
Proof.
  apply C7_threshold_in_unit_interval_when_stored_value_is.
  intros v t Hv Ht. vm_compute in Hv. inversion Hv; subst v.
  vm_compute in Ht. inversion Ht; subst t. reflexivity.
Defined.

(** C7 as stated fails: a file that stores 2.5 under [threshold_Youden]
    resolves to 2.5, which is above 1. *)
Lemma C7_threshold_outside_unit_interval :
  (forall float_of_str,
     THRESHOLD_of float_of_str (Parsed (JDict {[ threshold_Youden := JFloat (decimal 25 1) ]}))
     = decimal 25 1)
  /\ in_unit_interval (decimal 25 1) = false.
Proof. split; [intros float_of_str; reflexivity | reflexivity]. Qed.

(** C8: what the script labels the threshold with.  The label of the
    [try] branch is the constant "Youden (from rf_thresholds.json)": a
    file with only a chosen value, and a file with neither key (the default
    is used), are both labelled as Youden.  Only the [except] branch labels
    the default as such. *)
Theorem C8_label_says_Youden_for_chosen_and_default
    (float_of_str : string -> option float) (c : float) :
  resolve_threshold float_of_str (Parsed (JDict {[ threshold_Chosen := JFloat c ]}))
    = (c, "Youden (from rf_thresholds.json)")
  /\ resolve_threshold float_of_str (Parsed (JDict ∅))
    = (DEFAULT_THR, "Youden (from rf_thresholds.json)")
  /\ resolve_threshold float_of_str Absent
    = (DEFAULT_THR, "Default 0.5 (threshold file missing)")
  /\ (forall e, resolve_threshold float_of_str (Unreadable e)
    = (DEFAULT_THR, "Default 0.5 (threshold file missing)")).
Proof.
  unfold resolve_threshold. rewrite !threshold_try_dict.
  rewrite (lookup_singleton_ne threshold_Chosen threshold_Youden)
    by apply Chosen_ne_Youden.
  rewrite lookup_singleton_eq, !lookup_empty. done.
Qed.

(** C10.  Resolution always yields a float and one of the two labels, and
    whenever anything in the [try] raises, what it yields is exactly the
    default 0.5: for an absent or unreadable file, for content that is not
    valid JSON, for JSON that is not an object, and for a stored value that
    is [null], a list, an object, a string [float()] rejects or an integer
    too large for a float.  A file with neither key yields 0.5 as well. *)
Theorem C10_resolution_is_total
    (float_of_str : string -> option float) (f : cfg_file) :
  (exists t src, resolve_threshold float_of_str f = (t, src)
                 /\ (src = source_Youden \/ src = source_default))
  /\ (forall e, threshold_try float_of_str f = Raise e ->
                resolve_threshold float_of_str f = (DEFAULT_THR, source_default))
  /\ (f = Absent \/ (exists e, f = Unreadable e) \/ (exists msg, f = InvalidJSON msg)
      \/ (exists v, f = Parsed v /\ forall d, v <> JDict d)
      \/ (exists v, stored_threshold f = Some v
                    /\ (v = JNull \/ (exists l, v = JList l) \/ (exists d, v = JDict d)
                        \/ (exists s, v = JStr s /\ float_of_str s = None)
                        \/ (exists n, v = JInt n /\ is_inf (float_of_Z n) = true))) ->
      THRESHOLD_of float_of_str f = DEFAULT_THR)
  /\ (forall d, f = Parsed (JDict d) -> stored_threshold f = None ->
                THRESHOLD_of float_of_str f = DEFAULT_THR).
Proof.
  split; [|split; [|split]].
  - destruct (resolve_cases float_of_str f)
      as [(e & _ & ->) | [(_ & ->) | (v & t & _ & _ & ->)]]; eauto 6.
  - apply resolve_raise.
  - unfold THRESHOLD_of.
    intros [-> | [[e ->] | [[msg ->] | [(v & -> & Hv) | (v & Hv & Hbad)]]]];
      try reflexivity.
    + destruct (threshold_try_not_dict float_of_str v Hv) as [e He].
      by rewrite (resolve_raise _ _ _ He).
    + destruct (resolve_cases float_of_str f)
        as [(e & _ & ->) | [(Hn & ->) | (v' & t & Hv' & Ht & ->)]]; try reflexivity.
      rewrite Hv in Hv'. inversion Hv'; subst v'. exfalso.
      destruct Hbad as [-> | [[l ->] | [[d ->] | [(s & -> & Hs) | (n & -> & Hn)]]]];
        simpl in Ht; try done.
      * by rewrite Hs in Ht.
      * by rewrite Hn in Ht.
  - intros d -> Hnone. unfold THRESHOLD_of.
    destruct (resolve_cases float_of_str (Parsed (JDict d)))
      as [(e & _ & ->) | [(_ & ->) | (v & t & Hv & _ & _)]]; try reflexivity.
    by rewrite Hnone in Hv.
Qed.

(** C10 at a file whose Youden entry is [null]: [float(None)] raises, the
    chosen value next to it is not used, and the default is. *)
Lemma C10_resolution_is_total_witness :
  resolve_threshold no_str
    (Parsed (JDict {[ threshold_Youden := JNull; threshold_Chosen := JFloat (decimal 3 1) ]}))
  = (DEFAULT_THR, source_default).
Proof.
  apply (proj1 (proj2 (C10_resolution_is_total no_str _))
           (Exn "TypeError"
                "float() argument must be a string or a real number, not 'NoneType'")).
  reflexivity.
Defined.

(* ===================================================================== *)
(** * Record assembly and classification *)
(* ===================================================================== *)

Lemma pred_cls_cases (proba THRESHOLD : float) :
  pred_cls proba THRESHOLD = (if float_ge proba THRESHOLD then 1 else 0).
Proof. reflexivity. Qed.

Lemma label_positive_iff (proba THRESHOLD : float) :
  label (pred_cls proba THRESHOLD) = Resorption <-> float_ge proba THRESHOLD = true.
Proof. unfold label, pred_cls. by destruct (float_ge proba THRESHOLD). Qed.

Lemma label_negative_iff (proba THRESHOLD : float) :
  label (pred_cls proba THRESHOLD) = Non_resorption <-> float_ge proba THRESHOLD = false.
Proof. unfold label, pred_cls. by destruct (float_ge proba THRESHOLD). Qed.

(** What the button's branch does when the pipeline returns. *)
Lemma predict_returns (model : pipeline) (X : DataFrame) (THRESHOLD proba : float)
    (s : session form) :
  model X = Ok proba ->
  predict model X THRESHOLD s =
    (Returned tt, s,
     [Predict X;
      Show (success [Txt "Predicted probability: "; Num proba ".2%";
                     Txt " ｜ Threshold: "; Num THRESHOLD ".4f";
                     Txt " ｜ Classification: ";
                     Txt (label (pred_cls proba THRESHOLD))])]).
Proof.
  intros Hm. unfold predict, try_except, mbind, script_bind, bind, emit, lift.
  simpl. by rewrite Hm.
Qed.

(** What it does when the pipeline raises. *)
Lemma predict_raises (model : pipeline) (X : DataFrame) (THRESHOLD : float)
    (s : session form) (e : exception) :
  model X = Raise e ->
  predict model X THRESHOLD s =
    (Returned tt, s,
     [Predict X;
      Show (error [Txt "Prediction failed: "; Err e]);
      Show (info [Txt "Please check that the feature names and values match the training set. The pipeline already includes OHE and scaling."])]).
Proof.
  intros Hm. unfold predict, try_except, mbind, script_bind, bind, emit, lift.
  simpl. by rewrite Hm.
Qed.

(** C1.  On a predict trigger for which the pipeline returns [proba], the
    label shown is the positive one exactly when [proba >= THRESHOLD], the
    negative one exactly when that comparison is false, and in particular
    positive when [proba == THRESHOLD]. *)
Theorem C1_label_positive_iff_proba_ge_threshold
    (model : pipeline) (X : DataFrame) (THRESHOLD proba : float) (s : session form)
    (Hproba : model X = Ok proba) :
  exists lbl,
    predict model X THRESHOLD s =
      (Returned tt, s,
       [Predict X;
        Show (success [Txt "Predicted probability: "; Num proba ".2%";
                       Txt " ｜ Threshold: "; Num THRESHOLD ".4f";
                       Txt " ｜ Classification: "; Txt lbl])])
    /\ lbl = label (pred_cls proba THRESHOLD)
    /\ (pred_cls proba THRESHOLD = 1 <-> float_ge proba THRESHOLD = true)
    /\ (lbl = Resorption <-> float_ge proba THRESHOLD = true)
    /\ (lbl = Non_resorption <-> float_ge proba THRESHOLD = false)
    /\ (float_eq proba THRESHOLD = true -> lbl = Resorption).
Proof.
  exists (label (pred_cls proba THRESHOLD)).
  split; [by apply predict_returns|]. split; [done|].
  split; [unfold pred_cls; by destruct (float_ge proba THRESHOLD)|].
  split; [apply label_positive_iff|]. split; [apply label_negative_iff|].
  intros Heq. apply label_positive_iff. by apply float_eq_ge.
Qed.

(** C1 at the boundary: a probability of 0.47 against a threshold of 0.47. *)
Lemma C1_label_positive_at_the_boundary :
  exists lbl,
    predict (fun _ => Ok (decimal 47 2)) (X_input example_form) (decimal 47 2)
      {| widgets := example_form; cache := None |}
    = (Returned tt, {| widgets := example_form; cache := None |},
       [Predict (X_input example_form);
        Show (success [Txt "Predicted probability: "; Num (decimal 47 2) ".2%";
                       Txt " ｜ Threshold: "; Num (decimal 47 2) ".4f";
                       Txt " ｜ Classification: "; Txt lbl])])
    /\ lbl = "Resorption (1)".
Proof.
  destruct (C1_label_positive_iff_proba_ge_threshold
              (fun _ => Ok (decimal 47 2)) (X_input example_form)
              (decimal 47 2) (decimal 47 2)
              {| widgets := example_form; cache := None |} eq_refl)
    as (lbl & Hrun & _ & _ & _ & _ & Heq).
  exists lbl. split; [exact Hrun | apply Heq; reflexivity].
Defined.

(** C3.  Whatever the field values, the assembled record has the schema's
    columns, in the schema's order: fifteen distinct names; the dictionary
    it is built from has exactly those fifteen keys; and its one row holds a
    value for each, the one the form gave. *)
Theorem C3_record_has_the_schema_fields_in_order (f : form) :
  columns (X_input f) = FEATURES
  /\ FEATURES =
       [ "Age"; "Gender"; "Herniated_Level"; "Priffmann"; "Iwabuchi"; "Modic"; "Komori";
         "MSU"; "Spinal_canal_stenosis"; "Bull_eye"; "SS"; "Upper_VB_Posterior_Height_CM";
         "Lower_VB_Posterior_Height_CM"; "Initial_volume"; "Months_of_Review" ]
  /\ length (columns (X_input f)) = 15%nat
  /\ NoDup (columns (X_input f))
  /\ dom (row f) = list_to_set FEATURES
  /\ size (row f) = 15%nat
  /\ rows (X_input f) =
       [ [ Some (VInt (Age f)); Some (VStr (gender_label (Gender f)));
           Some (VStr (Herniated_Level f)); Some (VInt (Priffmann f));
           Some (VInt (Iwabuchi f)); Some (VInt (Modic f)); Some (VInt (Komori f));
           Some (VInt (MSU f)); Some (VInt (Spinal_canal_stenosis f));
           Some (VInt (Bull_eye f)); Some (VFloat (SS f));
           Some (VFloat (Upper_VB_Posterior_Height_CM f));
           Some (VFloat (Lower_VB_Posterior_Height_CM f));
           Some (VFloat (Initial_volume f)); Some (VInt (Months_of_Review f)) ] ].
Proof.
  split; [reflexivity|]. split; [reflexivity|]. split; [reflexivity|].
  split; [apply (bool_decide_unpack _); by vm_compute|].
  split; [by vm_compute|]. split; [by vm_compute|]. by vm_compute.
Qed.

(** C4.  Code 0 gives "Female", code 1 gives "Male", no code gives anything
    else, and every code other than 1 gives "Female". *)
Theorem C4_gender_label_total (code : Z) :
  gender_label 0 = "Female"
  /\ gender_label 1 = "Male"
  /\ (gender_label code = "Female" \/ gender_label code = "Male")
  /\ (code <> 1 -> gender_label code = "Female").
Proof.
  unfold gender_label, int. split; [done|]. split; [done|].
  destruct (Z.eqb_spec code 1); split; auto; by intros.
Qed.

(** C4 at a code outside the select box's options. *)
Lemma C4_gender_label_out_of_domain : gender_label 2 = "Female".
Proof. apply (C4_gender_label_total 2). discriminate. Defined.

(** C9.  The example of the specification: its values are the ones the
    form starts on, they lie in the declared domains, the record assembled
    from them has Gender = "Male", and a probability of 0.62 against a
    threshold of 0.47 is labelled positive. *)
Theorem C9_example_scenario :
  example_form = initial_form
  /\ in_domain example_form = true
  /\ row example_form !! "Gender" = Some (VStr "Male")
  /\ rows (X_input example_form) =
       [ [ Some (VInt 50); Some (VStr "Male"); Some (VStr "L4/5"); Some (VInt 2);
           Some (VInt 2); Some (VInt 0); Some (VInt 2); Some (VInt 2); Some (VInt 0);
           Some (VInt 1); Some (VFloat (decimal 300 1)); Some (VFloat (decimal 25 1));
           Some (VFloat (decimal 24 1)); Some (VFloat (decimal 40 1)); Some (VInt 6) ] ]
  /\ pred_cls (decimal 62 2) (decimal 47 2) = 1
  /\ label (pred_cls (decimal 62 2) (decimal 47 2)) = "Resorption (1)"
  /\ predict (fun _ => Ok (decimal 62 2)) (X_input example_form) (decimal 47 2)
       {| widgets := example_form; cache := None |}
     = (Returned tt, {| widgets := example_form; cache := None |},
        [Predict (X_input example_form);
         Show (success [Txt "Predicted probability: "; Num (decimal 62 2) ".2%";
                        Txt " ｜ Threshold: "; Num (decimal 47 2) ".4f";
                        Txt " ｜ Classification: "; Txt "Resorption (1)"])]).
Proof. repeat split; by vm_compute. Qed.

(* ===================================================================== *)
(** * Loading the model *)
(* ===================================================================== *)

Section Loading.
Variables (w : env) (pkl_path : string) (s : session form).

(** A hit of the cache: the body does not run, the disk is not read. *)
Lemma load_model_cached (model : pipeline) :
  cache s = Some model ->
  load_model w pkl_path s = (Returned model, s, []).
Proof. unfold load_model, cache_resource. by intros ->. Qed.

Lemma load_model_missing :
  cache s = None -> path_exists w pkl_path = false ->
  load_model w pkl_path s =
    (Stopped, s, [Show (error [Txt "Model file not found: "; Txt pkl_path])]).
Proof.
  intros Hc He. unfold load_model, cache_resource, load_model_body.
  rewrite Hc. unfold mbind, script_bind, bind. rewrite He. reflexivity.
Qed.

Lemma load_model_corrupt (e : exception) :
  cache s = None -> path_exists w pkl_path = true ->
  joblib_load w pkl_path = Raise e ->
  load_model w pkl_path s =
    (Stopped, s,
     [Load pkl_path; Show (error [Txt "Model loading failed: "; Err e])]).
Proof.
  intros Hc He Hl. unfold load_model, cache_resource, load_model_body.
  rewrite Hc. unfold mbind, script_bind, bind, try_except. rewrite He. simpl.
  rewrite Hl. reflexivity.
Qed.

Lemma load_model_loaded (model : pipeline) :
  cache s = None -> path_exists w pkl_path = true ->
  joblib_load w pkl_path = Ok model ->
  load_model w pkl_path s =
    (Returned model, {| widgets := widgets s; cache := Some model |}, [Load pkl_path]).
Proof.
  intros Hc He Hl. unfold load_model, cache_resource, load_model_body.
  rewrite Hc. unfold mbind, script_bind, bind, try_except. rewrite He. simpl.
  rewrite Hl. reflexivity.
Qed.
End Loading.

(** When [load_model] stops, so does the script, right there. *)
Lemma app_stops_with_load_model
    (float_of_str : string -> option float) (w : env) (s s1 : session form)
    (t1 : list event) :
  load_model w MODEL_PATH s = (Stopped, s1, t1) ->
  app float_of_str w s = (Stopped, s1, page_head float_of_str w ++ t1).
Proof.
  intros Hload. unfold app, page_head, THRESHOLD_of, thr_source_of.
  destruct (resolve_threshold float_of_str (thr_file w)) as [THRESHOLD thr_source].
  unfold mbind, script_bind, bind, show, emit. simpl. rewrite Hload. reflexivity.
Qed.

(** C5.  In a session that has no model yet, when the model file is
    missing or [joblib.load] raises, the run stops at [load_model]: the last
    thing on the page is an error message, no input widget and no button
    has been put on the page, the pipeline is never called, [joblib.load]
    has been called at most once, and the session still has no model. *)
Theorem C5_model_load_failure_halts_the_run
    (float_of_str : string -> option float) (w : env) (s : session form)
    (Hcold : cache s = None)
    (Hfail : path_exists w MODEL_PATH = false
             \/ exists e, joblib_load w MODEL_PATH = Raise e) :
  outcome_of (app float_of_str w s) = Stopped
  /\ session_of (app float_of_str w s) = s
  /\ (exists msg, last (events_of (app float_of_str w s)) = Some (Show (error msg)))
  /\ forallb (fun ev => negb (is_input ev) && negb (is_predict ev))
       (events_of (app float_of_str w s)) = true
  /\ (length (List.filter is_load (events_of (app float_of_str w s))) <= 1)%nat.
Proof.
  assert (Hload : exists t1 msg,
             load_model w MODEL_PATH s = (Stopped, s, t1)
             /\ (t1 = [Show (error msg)] \/ t1 = [Load MODEL_PATH; Show (error msg)])).
  { destruct (path_exists w MODEL_PATH) eqn:He.
    - destruct Hfail as [|[e Hl]]; [done|].
      eexists _, _. split; [by apply load_model_corrupt|]. by right.
    - eexists _, _. split; [by apply load_model_missing|]. by left. }
  destruct Hload as (t1 & msg & Hload & Ht1).
  rewrite (app_stops_with_load_model _ _ _ _ _ Hload).
  unfold outcome_of, session_of, events_of, page_head. simpl.
  split; [done|]. split; [done|].
  destruct Ht1 as [-> | ->]; simpl; (split; [by exists msg|]); split; (done || lia).
Qed.

(** C5 at a fresh session on a disk with neither file: the page is the
    threshold caption and the error message. *)
Lemma C5_missing_model_file_halts_the_run :
  let w := {| thr_file := Absent; path_exists := fun _ => false;
              joblib_load := fun _ => Raise (Exn "FileNotFoundError" MODEL_PATH);
              clicked := false |} in
  let s := {| widgets := initial_form; cache := None |} in
  outcome_of (app no_str w s) = Stopped
  /\ events_of (app no_str w s) =
       [ Show (page_config
                 "Lumbar Disc Herniation Resorption Probability Calculator (Random Forest)"
                 "centered");
         Show (caption [Txt "Current classification threshold: "; Num DEFAULT_THR ".4f";
                        Txt "  —  "; Txt "Default 0.5 (threshold file missing)"]);
         Show (error [Txt "Model file not found: "; Txt "best_model_random_forest.pkl"]) ].
Proof.
  intros w s.
  split; [|reflexivity].
  apply (C5_model_load_failure_halts_the_run no_str w s eq_refl (or_introl eq_refl)).
Defined.

(* ===================================================================== *)
(** * A failing prediction *)
(* ===================================================================== *)

(** C6.  When the pipeline raises [e] on a predict trigger, the [except]
    clause takes it: the branch returns normally, an error message carrying
    [e] is put on the page, the pipeline has been called exactly once, and
    the session (widget values and loaded model) is what it was.  The
    threshold is a value the branch only reads. *)
Theorem C6_inference_exception_is_caught_and_reported
    (model : pipeline) (X : DataFrame) (THRESHOLD : float) (s : session form)
    (e : exception) (Hraise : model X = Raise e) :
  outcome_of (predict model X THRESHOLD s) = Returned tt
  /\ session_of (predict model X THRESHOLD s) = s
  /\ events_of (predict model X THRESHOLD s) =
       [ Predict X;
         Show (error [Txt "Prediction failed: "; Err e]);
         Show (info [Txt "Please check that the feature names and values match the training set. The pipeline already includes OHE and scaling."]) ]
  /\ length (List.filter is_predict (events_of (predict model X THRESHOLD s))) = 1%nat
  /\ existsb is_error (events_of (predict model X THRESHOLD s)) = true.
Proof. rewrite (predict_raises _ _ _ _ _ Hraise). done. Qed.

(** C6 at a pipeline that rejects the record. *)
Lemma C6_schema_mismatch_is_reported :
  let e := Exn "ValueError" "columns are missing: {'Age'}" in
  let s := {| widgets := example_form; cache := Some (fun _ => Raise e) |} in
  outcome_of (predict (fun _ => Raise e) (X_input example_form) DEFAULT_THR s) = Returned tt
  /\ session_of (predict (fun _ => Raise e) (X_input example_form) DEFAULT_THR s) = s.
Proof.
  intros e s.
  destruct (C6_inference_exception_is_caught_and_reported
              (fun _ => Raise e) (X_input example_form) DEFAULT_THR s e eq_refl)
    as (Ho & Hs & _).
  split; [exact Ho | exact Hs].
Defined.

(* ===================================================================== *)
(** * Whole runs *)
(* ===================================================================== *)

(** Once [load_model] has returned, the run shows the inputs and ends as
    the button's branch does. *)
Lemma app_with_model
    (float_of_str : string -> option float) (w : env) (s s1 s2 : session form)
    (model : pipeline) (t1 t2 : list event) (o : outcome unit) :
  load_model w MODEL_PATH s = (Returned model, s1, t1) ->
  (if clicked w
   then predict model (X_input (widgets s1)) (THRESHOLD_of float_of_str (thr_file w))
   else mret tt) s1 = (o, s2, t2) ->
  app float_of_str w s
  = (o, s2, page_head float_of_str w ++ t1 ++ inputs_page (widgets s1) ++ t2).
Proof.
  intros Hload Hrest.
  destruct s1 as [F c1]. destruct F. simpl in Hrest.
  unfold app, page_head, THRESHOLD_of, thr_source_of in *.
  destruct (resolve_threshold float_of_str (thr_file w)) as [THRESHOLD thr_source].
  simpl in Hrest.
  unfold mbind, script_bind, bind, show, emit. simpl. rewrite Hload.
  destruct (clicked w).
  - cbv -[predict X_input decimal app]. rewrite Hrest. reflexivity.
  - inversion Hrest; subst. reflexivity.
Qed.

Lemma inputs_page_counts (f : form) :
  length (List.filter is_input (inputs_page f)) = 16%nat
  /\ forallb (fun ev => negb (is_load ev) && negb (is_predict ev)) (inputs_page f) = true.
Proof. split; reflexivity. Qed.


(** The button's branch, taken or not, leaves the session as it is and
    reads nothing from disk. *)
Lemma button_branch_session
    (pressed : bool) (model : pipeline) (X : DataFrame) (THRESHOLD : float)
    (s : session form) :
  session_of ((if pressed then predict model X THRESHOLD else mret tt) s) = s.
Proof.
  destruct pressed; [|reflexivity].
  destruct (model X) as [p|e] eqn:Hm.
  - by rewrite (predict_returns _ _ _ _ _ Hm).
  - by rewrite (predict_raises _ _ _ _ _ Hm).
Qed.

Lemma button_branch_no_load
    (pressed : bool) (model : pipeline) (X : DataFrame) (THRESHOLD : float)
    (s : session form) :
  List.filter is_load
    (events_of ((if pressed then predict model X THRESHOLD else mret tt) s)) = [].
Proof.
  destruct pressed; [|reflexivity].
  destruct (model X) as [p|e] eqn:Hm.
  - by rewrite (predict_returns _ _ _ _ _ Hm).
  - by rewrite (predict_raises _ _ _ _ _ Hm).
Qed.

(** The first run of a session loads the model once and stores it; from
    the session it leaves, no run reads the model from disk again, whatever
    has become of the file. *)
Theorem model_is_loaded_once
    (float_of_str : string -> option float) (w w' : env) (s : session form)
    (model : pipeline)
    (Hcold : cache s = None)
    (Hfile : path_exists w MODEL_PATH = true)
    (Hload : joblib_load w MODEL_PATH = Ok model) :
  session_of (app float_of_str w s) = {| widgets := widgets s; cache := Some model |}
  /\ length (List.filter is_load (events_of (app float_of_str w s))) = 1%nat
  /\ List.filter is_load (events_of (app float_of_str w' (session_of (app float_of_str w s))))
     = [].
Proof.
  set (s1 := {| widgets := widgets s; cache := Some model |}).
  pose proof (load_model_loaded w MODEL_PATH s model Hcold Hfile Hload) as Hl.
  fold s1 in Hl.
  pose proof (button_branch_session (clicked w) model (X_input (widgets s1))
                (THRESHOLD_of float_of_str (thr_file w)) s1) as Hs2.
  pose proof (button_branch_no_load (clicked w) model (X_input (widgets s1))
                (THRESHOLD_of float_of_str (thr_file w)) s1) as Hf2.
  destruct ((if clicked w
             then predict model (X_input (widgets s1))
                    (THRESHOLD_of float_of_str (thr_file w))
             else mret tt) s1) as [[o s2] t2] eqn:Hrest.
  unfold session_of, events_of in Hs2, Hf2. cbn [fst snd] in Hs2, Hf2. subst s2.
  rewrite (app_with_model _ _ _ _ _ _ _ _ _ Hl Hrest).
  unfold session_of, events_of. cbn [fst snd].
  split; [done|]. split.
  { rewrite !List.filter_app, Hf2. reflexivity. }
  pose proof (button_branch_no_load (clicked w') model (X_input (widgets s1))
                (THRESHOLD_of float_of_str (thr_file w')) s1) as Hf2'.
  destruct ((if clicked w'
             then predict model (X_input (widgets s1))
                    (THRESHOLD_of float_of_str (thr_file w'))
             else mret tt) s1) as [[o' s2'] t2'] eqn:Hrest'.
  unfold events_of in Hf2'. cbn [fst snd] in Hf2'.
  rewrite (app_with_model _ _ _ _ _ _ _ _ _
             (load_model_cached w' MODEL_PATH s1 model eq_refl) Hrest').
  cbn [fst snd]. rewrite !List.filter_app, Hf2'. reflexivity.
Qed.

(** A whole run in which the button was pressed and the pipeline raises:
    the run ends normally after the error message, with the form on the
    page and the session as it was, so that the next run starts from the
    same inputs. *)
Theorem failed_prediction_returns_to_the_form
    (float_of_str : string -> option float) (w : env) (s : session form)
    (model : pipeline) (e : exception)
    (Hwarm : cache s = Some model) (Hclick : clicked w = true)
    (Hraise : model (X_input (widgets s)) = Raise e) :
  app float_of_str w s
  = (Returned tt, s,
     page_head float_of_str w ++ inputs_page (widgets s)
     ++ [ Predict (X_input (widgets s));
          Show (error [Txt "Prediction failed: "; Err e]);
          Show (info [Txt "Please check that the feature names and values match the training set. The pipeline already includes OHE and scaling."]) ]).
Proof.
  apply (app_with_model float_of_str w s s s model []).
  - by apply load_model_cached.
  - rewrite Hclick. by apply predict_raises.
Qed.

(** A whole run in which the button was pressed and the pipeline returns
    [proba]: the threshold the probability is compared with is the one
    resolved from the threshold file, and it is the one shown. *)
Theorem prediction_uses_the_resolved_threshold
    (float_of_str : string -> option float) (w : env) (s : session form)
    (model : pipeline) (proba : float)
    (Hwarm : cache s = Some model) (Hclick : clicked w = true)
    (Hproba : model (X_input (widgets s)) = Ok proba) :
  app float_of_str w s
  = (Returned tt, s,
     page_head float_of_str w ++ inputs_page (widgets s)
     ++ [ Predict (X_input (widgets s));
          Show (success
                  [Txt "Predicted probability: "; Num proba ".2%";
                   Txt " ｜ Threshold: "; Num (THRESHOLD_of float_of_str (thr_file w)) ".4f";
                   Txt " ｜ Classification: ";
                   Txt (if float_ge proba (THRESHOLD_of float_of_str (thr_file w))
                        then "Resorption (1)" else "Non-resorption (0)")]) ]).
Proof.
  apply (app_with_model float_of_str w s s s model []).
  - by apply load_model_cached.
  - rewrite Hclick, (predict_returns _ _ _ _ _ Hproba).
    unfold label, pred_cls. by destruct (float_ge _ _).
Qed.

(** ** The theorems above at concrete runs *)


Lemma model_is_loaded_once_example :
  length (List.filter is_load
            (events_of (app no_str (example_env true)
                          {| widgets := initial_form; cache := None |}))) = 1%nat.
Proof.
  apply (model_is_loaded_once no_str (example_env true) (example_env true)
           {| widgets := initial_form; cache := None |}
           (fun _ => Ok (decimal 62 2)) eq_refl eq_refl eq_refl).
Defined.

Lemma failed_prediction_example :
  outcome_of (app no_str (example_env true)
                {| widgets := initial_form; cache := Some failing_pipeline |})
  = Returned tt.
Proof.
  rewrite (failed_prediction_returns_to_the_form no_str (example_env true)
             {| widgets := initial_form; cache := Some failing_pipeline |}
             failing_pipeline (Exn "ValueError" "columns are missing: {'Age'}")
             eq_refl eq_refl eq_refl).
  reflexivity.
Defined.

Lemma prediction_example :
  last (events_of (app no_str (example_env true)
                     {| widgets := initial_form;
                        cache := Some (fun _ => Ok (decimal 62 2)) |}))
  = Some (Show (success
                  [Txt "Predicted probability: "; Num (decimal 62 2) ".2%";
                   Txt " ｜ Threshold: "; Num (decimal 47 2) ".4f";
                   Txt " ｜ Classification: "; Txt "Resorption (1)"])).
Proof.
  rewrite (prediction_uses_the_resolved_threshold no_str (example_env true)
             {| widgets := initial_form; cache := Some (fun _ => Ok (decimal 62 2)) |}
             (fun _ => Ok (decimal 62 2)) (decimal 62 2) eq_refl eq_refl eq_refl).
  reflexivity.
Defined.

(* ===================================================================== *)
(** * The comparison [proba >= THRESHOLD] *)
(* ===================================================================== *)

(** [<=] on floats is transitive (a NaN on either side makes it false). *)
Lemma float_le_trans (a b c : float) :
  float_le a b = true -> float_le b c = true -> float_le a c = true.
Proof.
  unfold float_le, SFleb.
  destruct a as [sa|sa| |sa ma ea], b as [sb|sb| |sb mb eb], c as [sc|sc| |sc mc ec];
    simpl; try done;
    try (destruct sa; try done); try (destruct sb; try done); try (destruct sc; try done).
  all: change (Pos.compare_cont Eq) with Pos.compare.
  all: destruct (Z.compare_spec ea eb), (Z.compare_spec eb ec), (Z.compare_spec ea ec);
    try done; try lia; subst.
  all: destruct (Pos.compare_spec ma mb), (Pos.compare_spec mb mc), (Pos.compare_spec ma mc);
    simpl; try done; try lia.
Qed.

Lemma float_ge_nan_threshold (proba : float) : float_ge proba S754_nan = false.
Proof. by destruct proba. Qed.

Lemma float_ge_nan_proba (THRESHOLD : float) : float_ge S754_nan THRESHOLD = false.
Proof. by destruct THRESHOLD. Qed.

(** The decision is monotone: a probability labelled positive stays
    positive when the probability goes up or the threshold goes down. *)
Theorem label_is_monotone
    (proba proba' THRESHOLD THRESHOLD' : float)
    (Hproba : float_le proba proba' = true)
    (Hthreshold : float_le THRESHOLD' THRESHOLD = true)
    (Hpositive : label (pred_cls proba THRESHOLD) = Resorption) :
  label (pred_cls proba' THRESHOLD') = Resorption.
Proof.
  apply label_positive_iff. apply label_positive_iff in Hpositive.
  unfold float_ge in *. fold (float_le THRESHOLD proba) in Hpositive.
  fold (float_le THRESHOLD' proba').
  apply float_le_trans with THRESHOLD; [done|].
  by apply float_le_trans with proba.
Qed.

(** Monotonicity from 0.5 against 0.5 to 0.62 against 0.47. *)
Lemma label_is_monotone_example :
  label (pred_cls (decimal 62 2) (decimal 47 2)) = Resorption.
Proof.
  apply (label_is_monotone (decimal 5 1) (decimal 62 2) (decimal 5 1) (decimal 47 2));
    reflexivity.
Defined.

(** A NaN on either side of the comparison gives the negative label.  The
    resolver hands a stored NaN through, so with such a threshold file
    every probability is labelled negative. *)
Theorem nan_is_labelled_negative
    (float_of_str : string -> option float) (d : gmap string json)
    (proba THRESHOLD : float) :
  label (pred_cls proba S754_nan) = Non_resorption
  /\ label (pred_cls S754_nan THRESHOLD) = Non_resorption
  /\ resolve_threshold float_of_str
       (Parsed (JDict (<[ threshold_Youden := JFloat S754_nan ]> d)))
     = (S754_nan, source_Youden)
  /\ label (pred_cls proba
              (THRESHOLD_of float_of_str
                 (Parsed (JDict (<[ threshold_Youden := JFloat S754_nan ]> d)))))
     = Non_resorption.
Proof.
  assert (Hres : resolve_threshold float_of_str
                   (Parsed (JDict (<[ threshold_Youden := JFloat S754_nan ]> d)))
                 = (S754_nan, source_Youden)).
  { unfold resolve_threshold. rewrite threshold_try_dict.
    by rewrite lookup_insert_eq. }
  unfold THRESHOLD_of. rewrite Hres. simpl.
  repeat split; apply label_negative_iff;
    apply float_ge_nan_threshold || apply float_ge_nan_proba.
Qed.

(* ===================================================================== *)
(** * What the resolver reads *)
(* ===================================================================== *)

(** The resolver on a JSON object, by the two entries it reads. *)
Lemma resolve_dict (float_of_str : string -> option float) (d : gmap string json) :
  resolve_threshold float_of_str (Parsed (JDict d))
  = match to_float float_of_str
            (default (default (JFloat DEFAULT_THR) (d !! threshold_Chosen))
                     (d !! threshold_Youden)) with
    | Ok t => (t, source_Youden)
    | Raise _ => (DEFAULT_THR, source_default)
    end.
Proof.
  unfold resolve_threshold. rewrite threshold_try_dict.
  by destruct (to_float _ _).
Qed.

Lemma source_Youden_ne_default : source_Youden <> source_default.
Proof. discriminate. Qed.

(** Only the two keys count: an entry under any other key can be added,
    changed or removed without effect on the threshold or its label. *)
Theorem threshold_reads_two_keys_only
    (float_of_str : string -> option float) (d : gmap string json)
    (key : string) (v : json)
    (HY : key <> threshold_Youden) (HC : key <> threshold_Chosen) :
  resolve_threshold float_of_str (Parsed (JDict (<[ key := v ]> d)))
  = resolve_threshold float_of_str (Parsed (JDict d))
  /\ resolve_threshold float_of_str (Parsed (JDict (delete key d)))
     = resolve_threshold float_of_str (Parsed (JDict d)).
Proof.
  rewrite !resolve_dict.
  rewrite !(lookup_insert_ne _ key) by done.
  by rewrite !(lookup_delete_ne _ key) by done.
Qed.

(** An AUC stored next to the threshold changes nothing. *)
Lemma threshold_reads_two_keys_only_example :
  resolve_threshold no_str
    (Parsed (JDict (<[ "auc" := JStr "n/a" ]> {[ threshold_Youden := JFloat (decimal 47 2) ]})))
  = resolve_threshold no_str (Parsed (JDict {[ threshold_Youden := JFloat (decimal 47 2) ]})).
Proof.
  destruct (threshold_reads_two_keys_only no_str
              {[ threshold_Youden := JFloat (decimal 47 2) ]} "auc" (JStr "n/a"))
    as [Hinsert _]; [discriminate | discriminate | exact Hinsert].
Defined.

(** When the file has a Youden entry, that entry alone decides: the chosen
    entry can be anything, or be missing.  In particular a Youden entry
    that [float()] rejects gives the default even when a usable chosen value
    stands next to it. *)
Theorem Youden_entry_alone_decides
    (float_of_str : string -> option float) (d : gmap string json) (vy : json)
    (HY : d !! threshold_Youden = Some vy) :
  (forall vc, resolve_threshold float_of_str (Parsed (JDict (<[ threshold_Chosen := vc ]> d)))
              = resolve_threshold float_of_str (Parsed (JDict d)))
  /\ resolve_threshold float_of_str (Parsed (JDict (delete threshold_Chosen d)))
     = resolve_threshold float_of_str (Parsed (JDict d))
  /\ (forall t, to_float float_of_str vy = Ok t ->
                resolve_threshold float_of_str (Parsed (JDict d)) = (t, source_Youden))
  /\ (forall e, to_float float_of_str vy = Raise e ->
                resolve_threshold float_of_str (Parsed (JDict d))
                = (DEFAULT_THR, source_default)).
Proof.
  split; [|split].
  - intros vc. rewrite !resolve_dict.
    rewrite (lookup_insert_ne _ threshold_Chosen threshold_Youden) by apply Chosen_ne_Youden.
    by rewrite HY.
  - rewrite !resolve_dict.
    rewrite (lookup_delete_ne _ threshold_Chosen threshold_Youden) by apply Chosen_ne_Youden.
    by rewrite HY.
  - rewrite resolve_dict, HY. simpl. split; [by intros t -> | by intros e ->].
Qed.

(** A Youden entry that is a list, next to a chosen value of 0.3. *)
Lemma Youden_entry_alone_decides_example :
  resolve_threshold no_str
    (Parsed (JDict {[ threshold_Youden := JList []; threshold_Chosen := JFloat (decimal 3 1) ]}))
  = (DEFAULT_THR, source_default).
Proof.
  assert (HY : ({[ threshold_Youden := JList [];
                    threshold_Chosen := JFloat (decimal 3 1) ]} : gmap string json)
                 !! threshold_Youden = Some (JList []))
    by (vm_compute; reflexivity).
  destruct (Youden_entry_alone_decides no_str _ _ HY) as (_ & _ & _ & Hraise).
  apply (Hraise (Exn "TypeError"
                     "float() argument must be a string or a real number, not 'list'")).
  reflexivity.
Defined.

(** The label tells whether the [try] went through.  It is the default
    label exactly when something raised, and then the threshold is 0.5; it
    is the Youden label exactly when the file is a JSON object whose stored
    value is missing or converts to a float. *)
Theorem label_tells_whether_the_try_raised
    (float_of_str : string -> option float) (f : cfg_file) :
  (thr_source_of float_of_str f = source_Youden
   \/ thr_source_of float_of_str f = source_default)
  /\ (thr_source_of float_of_str f = source_default
      <-> exists e, threshold_try float_of_str f = Raise e)
  /\ (thr_source_of float_of_str f = source_default ->
      THRESHOLD_of float_of_str f = DEFAULT_THR)
  /\ (thr_source_of float_of_str f = source_Youden
      <-> exists d, f = Parsed (JDict d)
                    /\ (stored_threshold f = None
                        \/ exists v t, stored_threshold f = Some v
                                       /\ to_float float_of_str v = Ok t)).
Proof.
  unfold thr_source_of, THRESHOLD_of.
  destruct (resolve_cases float_of_str f)
    as [(e & Htry & Hres) | [(Hnone & Hres) | (v & t & Hv & Ht & Hres)]];
    rewrite Hres; simpl.
  - split; [by right|]. split; [split; [by exists e | done]|]. split; [done|].
    split; [intros H; by destruct source_Youden_ne_default|].
    intros (d & -> & Hst). exfalso. rewrite threshold_try_dict in Htry.
    simpl in Hst.
    destruct (d !! threshold_Youden) as [vy|] eqn:HY; simpl in Htry.
    + destruct Hst as [|(v & t & Hv & Ht)]; [done|].
      inversion Hv; subst v. by rewrite Ht in Htry.
    + destruct (d !! threshold_Chosen) as [vc|] eqn:HC; simpl in Htry; [|done].
      destruct Hst as [|(v & t & Hv & Ht)]; [done|].
      inversion Hv; subst v. by rewrite Ht in Htry.
  - assert (Hd : exists d, f = Parsed (JDict d)).
    { destruct f as [| | |[]]; try done. by eexists. }
    split; [by left|]. split.
    { split; [intros H; by destruct source_Youden_ne_default|].
      intros [e He]. pose proof (resolve_raise _ _ _ He) as Hr.
      rewrite Hres in Hr. by inversion Hr. }
    split; [intros H; by destruct source_Youden_ne_default|].
    split; [|done]. intros _. destruct Hd as [d ->]. exists d. split; [done|by left].
  - assert (Hd : exists d, f = Parsed (JDict d)).
    { destruct f as [| | |[]]; try done. by eexists. }
    split; [by left|]. split.
    { split; [intros H; by destruct source_Youden_ne_default|].
      intros [e He]. pose proof (resolve_raise _ _ _ He) as Hr.
      rewrite Hres in Hr. by inversion Hr. }
    split; [intros H; by destruct source_Youden_ne_default|].
    split; [|done]. intros _. destruct Hd as [d ->]. exists d. split; [done|].
    right. by exists v, t.
Qed.

(** What [float()] lets through besides floats: the booleans count as 1.0
    and 0.0, an integer is converted, a string is converted when [float()]
    accepts it; an integer too large for a float gives the default. *)
Theorem threshold_accepts_what_float_accepts
    (float_of_str : string -> option float) (d : gmap string json) (s : string) :
  resolve_threshold float_of_str (Parsed (JDict (<[ threshold_Youden := JBool true ]> d)))
  = (float_of_Z 1, source_Youden)
  /\ resolve_threshold float_of_str (Parsed (JDict (<[ threshold_Youden := JBool false ]> d)))
     = (float_of_Z 0, source_Youden)
  /\ resolve_threshold float_of_str (Parsed (JDict (<[ threshold_Youden := JInt 1 ]> d)))
     = (float_of_Z 1, source_Youden)
  /\ resolve_threshold float_of_str (Parsed (JDict (<[ threshold_Youden := JInt (2 ^ 1024) ]> d)))
     = (DEFAULT_THR, source_default)
  /\ resolve_threshold float_of_str (Parsed (JDict (<[ threshold_Youden := JStr s ]> d)))
     = match float_of_str s with
       | Some t => (t, source_Youden)
       | None => (DEFAULT_THR, source_default)
       end.
Proof.
  rewrite !resolve_dict, !lookup_insert_eq. simpl.
  repeat split. by destruct (float_of_str s).
Qed.

(* ===================================================================== *)
(** * Every run *)
(* ===================================================================== *)

(** The button's branch always returns, with the session it was given. *)
Lemma button_branch_cases
    (pressed : bool) (model : pipeline) (X : DataFrame) (THRESHOLD : float)
    (s : session form) :
  exists t2,
    (if pressed then predict model X THRESHOLD else mret tt) s = (Returned tt, s, t2)
    /\ ((pressed = false /\ t2 = [])
        \/ (pressed = true /\ exists shown,
              t2 = Predict X :: shown
              /\ forallb (fun ev => negb (is_input ev) && negb (is_load ev)
                                    && negb (is_predict ev)) shown = true)).
Proof.
  destruct pressed.
  - destruct (model X) as [p|e] eqn:Hm.
    + eexists. split; [by apply predict_returns|]. right. split; [done|].
      by eexists.
    + eexists. split; [by apply predict_raises|]. right. split; [done|].
      by eexists.
  - exists []. split; [done|]. by left.
Qed.

(** A run is of one of two kinds.  Either the session has no model and
    none can be loaded: the run stops after the error message.  Or a model
    is at hand, from the cache or from disk: the run shows the inputs, goes
    through the button's branch and returns. *)
Lemma app_cases (float_of_str : string -> option float) (w : env) (s : session form) :
  (cache s = None
   /\ (path_exists w MODEL_PATH = false \/ exists e, joblib_load w MODEL_PATH = Raise e)
   /\ exists t1 msg,
        app float_of_str w s = (Stopped, s, page_head float_of_str w ++ t1)
        /\ ((path_exists w MODEL_PATH = false /\ t1 = [Show (error msg)])
            \/ (path_exists w MODEL_PATH = true
                /\ t1 = [Load MODEL_PATH; Show (error msg)])))
  \/ (exists model t1 t2,
        ((cache s = Some model /\ t1 = [])
         \/ (cache s = None /\ path_exists w MODEL_PATH = true
             /\ joblib_load w MODEL_PATH = Ok model /\ t1 = [Load MODEL_PATH]))
        /\ app float_of_str w s
           = (Returned tt, {| widgets := widgets s; cache := Some model |},
              page_head float_of_str w ++ t1 ++ inputs_page (widgets s) ++ t2)
        /\ ((clicked w = false /\ t2 = [])
            \/ (clicked w = true /\ exists shown,
                  t2 = Predict (X_input (widgets s)) :: shown
                  /\ forallb (fun ev => negb (is_input ev) && negb (is_load ev)
                                        && negb (is_predict ev)) shown = true))).
Proof.
  destruct (cache s) as [model|] eqn:Hc.
  - right. 
    destruct (button_branch_cases (clicked w) model (X_input (widgets s))
                (THRESHOLD_of float_of_str (thr_file w)) s) as (t2 & Hrest & Ht2).
    exists model, [], t2. split; [by left|]. split; [|done].
    replace {| widgets := widgets s; cache := Some model |} with s
      by (destruct s; simpl in *; by subst).
    apply (app_with_model float_of_str w s s s model []); [|done].
    by apply load_model_cached.
  - destruct (path_exists w MODEL_PATH) eqn:He.
    + destruct (joblib_load w MODEL_PATH) as [model|e] eqn:Hl.
      * right. set (s1 := {| widgets := widgets s; cache := Some model |}).
        destruct (button_branch_cases (clicked w) model (X_input (widgets s1))
                    (THRESHOLD_of float_of_str (thr_file w)) s1) as (t2 & Hrest & Ht2).
        exists model, [Load MODEL_PATH], t2. split; [by right|]. split; [|done].
        apply (app_with_model float_of_str w s s1 s1 model [Load MODEL_PATH]); [|done].
        by apply load_model_loaded.
      * left. split; [done|]. split; [right; by exists e|].
        eexists _, _. split.
        { apply app_stops_with_load_model. by apply load_model_corrupt. }
        by right.
    + left. split; [done|]. split; [by left|].
      eexists _, _. split.
      { apply app_stops_with_load_model. by apply load_model_missing. }
      by left.
Qed.

Lemma filter_none {A} (p : A -> bool) (l : list A) :
  forallb (fun x => negb (p x)) l = true -> List.filter p l = [].
Proof.
  induction l as [|x l IH]; simpl; [done|].
  destruct (p x); simpl; [done|]. exact IH.
Qed.

Lemma forallb_weaken {A} (p q : A -> bool) (l : list A) :
  (forall x, p x = true -> q x = true) -> forallb p l = true -> forallb q l = true.
Proof.
  intros Hpq. induction l as [|x l IH]; simpl; [done|].
  intros [Hx Hl]%andb_true_iff. by rewrite (Hpq _ Hx), IH.
Qed.



(** The calls a run makes. *)
Lemma app_calls (float_of_str : string -> option float) (w : env) (s : session form) :
  (List.filter is_predict (events_of (app float_of_str w s)) = []
   \/ (clicked w = true
       /\ List.filter is_predict (events_of (app float_of_str w s))
          = [Predict (X_input (widgets s))]
       /\ In (Show (dataframe (X_input (widgets s)))) (events_of (app float_of_str w s))))
  /\ (clicked w = false ->
      List.filter is_predict (events_of (app float_of_str w s)) = [])
  /\ List.filter is_load (events_of (app float_of_str w s))
     = match cache s with
       | Some _ => []
       | None => if path_exists w MODEL_PATH then [Load MODEL_PATH] else []
       end.
Proof.
  destruct (app_cases float_of_str w s)
    as [(Hc & Hfail & t1 & msg & Hrun & Ht1)
       | (model & t1 & t2 & Hmodel & Hrun & Ht2)];
    rewrite Hrun; unfold events_of; cbn [fst snd]; rewrite !List.filter_app.
  - rewrite Hc. destruct Ht1 as [[-> ->] | [-> ->]]; by (split; [left|]).
  - assert (Hp1 : List.filter is_predict t1 = [])
      by (destruct Hmodel as [[_ ->] | (_ & _ & _ & ->)]; done).
    assert (Hl2 : List.filter is_load t2 = []).
    { destruct Ht2 as [[_ ->] | (_ & shown & -> & Hshown)]; [done|]. simpl.
      apply filter_none. revert Hshown. apply forallb_weaken.
      intros ev. destruct (is_input ev), (is_load ev); done. }
    rewrite Hp1, Hl2. split; [|split].
    + destruct Ht2 as [[_ ->] | (Hclick & shown & -> & Hshown)]; [by left|].
      right. split; [done|]. split.
      * simpl. f_equal. apply filter_none. revert Hshown. apply forallb_weaken.
        intros ev. destruct (is_input ev), (is_load ev), (is_predict ev); done.
      * rewrite !in_app_iff. right. right. left. simpl. tauto.
    + intros Hidle. destruct Ht2 as [[_ ->] | (Hclick & _)]; [done|congruence].
    + destruct Hmodel as [[-> ->] | (-> & -> & _ & ->)]; done.
Qed.

(** The pipeline is called only when the button was pressed, at most once
    in a run, and on the very record the preview shows: the one assembled
    from the session's widget values. *)
Theorem pipeline_is_called_on_the_previewed_record
    (float_of_str : string -> option float) (w : env) (s : session form) :
  (length (List.filter is_predict (events_of (app float_of_str w s))) <= 1)%nat
  /\ (clicked w = false ->
      List.filter is_predict (events_of (app float_of_str w s)) = [])
  /\ (forall X, In (Predict X) (events_of (app float_of_str w s)) ->
                clicked w = true
                /\ X = X_input (widgets s)
                /\ In (Show (dataframe X)) (events_of (app float_of_str w s))).
Proof.
  destruct (app_calls float_of_str w s) as ([Hnone | (Hclick & Hone & Hshown)] & Hidle & _).
  - split; [rewrite Hnone; simpl; lia|]. split; [done|].
    intros X HX. exfalso.
    assert (Hin : In (Predict X) (List.filter is_predict (events_of (app float_of_str w s))))
      by (apply List.filter_In; by split).
    by rewrite Hnone in Hin.
  - split; [rewrite Hone; simpl; lia|]. split; [done|].
    intros X HX.
    assert (Hin : In (Predict X) (List.filter is_predict (events_of (app float_of_str w s))))
      by (apply List.filter_In; by split).
    rewrite Hone in Hin. destruct Hin as [Heq | []]. inversion Heq; subst X. done.
Qed.

(** [joblib.load] is called only when the session has no model and the
    file exists, then exactly once and on [MODEL_PATH], whether or not the
    load succeeds. *)
Theorem disk_is_read_only_for_a_missing_model
    (float_of_str : string -> option float) (w : env) (s : session form) :
  (forall model, cache s = Some model ->
                 List.filter is_load (events_of (app float_of_str w s)) = [])
  /\ (path_exists w MODEL_PATH = false ->
      List.filter is_load (events_of (app float_of_str w s)) = [])
  /\ (cache s = None -> path_exists w MODEL_PATH = true ->
      List.filter is_load (events_of (app float_of_str w s)) = [Load MODEL_PATH]).
Proof.
  destruct (app_calls float_of_str w s) as (_ & _ & Hload). rewrite Hload.
  split; [by intros model ->|]. split.
  - intros ->. by destruct (cache s).
  - by intros -> ->.
Qed.

(** A failed load leaves nothing in the cache: once the file is in place
    and loads, the next run of the same session reads it and shows the
    form. *)
Theorem load_failure_is_not_cached
    (float_of_str : string -> option float) (w w' : env) (s : session form)
    (model : pipeline)
    (Hcold : cache s = None)
    (Hfail : path_exists w MODEL_PATH = false
             \/ exists e, joblib_load w MODEL_PATH = Raise e)
    (Hfile : path_exists w' MODEL_PATH = true)
    (Hload : joblib_load w' MODEL_PATH = Ok model) :
  outcome_of (app float_of_str w s) = Stopped
  /\ outcome_of (app float_of_str w' (session_of (app float_of_str w s))) = Returned tt
  /\ session_of (app float_of_str w' (session_of (app float_of_str w s)))
     = {| widgets := widgets s; cache := Some model |}
  /\ List.filter is_load
       (events_of (app float_of_str w' (session_of (app float_of_str w s))))
     = [Load MODEL_PATH].
Proof.
  assert (Hfirst : outcome_of (app float_of_str w s) = Stopped
                   /\ session_of (app float_of_str w s) = s).
  { destruct (app_cases float_of_str w s)
      as [(_ & _ & t1 & msg & Hrun & _) | (m & t1 & t2 & Hmodel & _)].
    - by rewrite Hrun.
    - destruct Hmodel as [[Hc _] | (_ & He & Hl & _)]; [congruence|].
      destruct Hfail as [|[e He']]; congruence. }
  destruct Hfirst as [Hstop Hsame]. rewrite Hsame. split; [done|].
  destruct (app_calls float_of_str w' s) as (_ & _ & Hcalls).
  rewrite Hcold, Hfile in Hcalls.
  destruct (app_cases float_of_str w' s)
    as [(_ & Hfail' & _) | (m & t1' & t2' & Hmodel & Hrun' & _)].
  { destruct Hfail' as [|[e He']]; congruence. }
  destruct Hmodel as [[Hc _] | (_ & _ & Hl & _)]; [congruence|].
  rewrite Hload in Hl. inversion Hl; subst m.
  split; [by rewrite Hrun'|]. split; [by rewrite Hrun'|]. done.
Qed.

(** Every run, also one that stops at the model, begins with the page
    configuration and the caption that shows the threshold resolved in this
    run and its label. *)
Theorem threshold_caption_comes_first
    (float_of_str : string -> option float) (w : env) (s : session form) :
  exists rest,
    events_of (app float_of_str w s)
    = Show (page_config
              "Lumbar Disc Herniation Resorption Probability Calculator (Random Forest)"
              "centered")
      :: Show (caption [Txt "Current classification threshold: ";
                        Num (THRESHOLD_of float_of_str (thr_file w)) ".4f";
                        Txt "  —  "; Txt (thr_source_of float_of_str (thr_file w))])
      :: rest.
Proof.
  destruct (app_cases float_of_str w s)
    as [(_ & _ & t1 & msg & Hrun & _) | (m & t1 & t2 & _ & Hrun & _)];
    rewrite Hrun; by eexists.
Qed.

(** The run of a fresh session against an empty directory, then against
    [example_env]. *)
Lemma load_failure_is_not_cached_example :
  outcome_of
    (app no_str (example_env false)
       (session_of
          (app no_str
             {| thr_file := Absent; path_exists := fun _ => false;
                joblib_load := fun _ => Raise (Exn "FileNotFoundError" MODEL_PATH);
                clicked := false |}
             {| widgets := initial_form; cache := None |})))
  = Returned tt.
Proof.
  destruct (load_failure_is_not_cached no_str
              {| thr_file := Absent; path_exists := fun _ => false;
                 joblib_load := fun _ => Raise (Exn "FileNotFoundError" MODEL_PATH);
                 clicked := false |}
              (example_env false)
              {| widgets := initial_form; cache := None |}
              (fun _ => Ok (decimal 62 2))
              eq_refl (or_introl eq_refl) eq_refl eq_refl)
    as (_ & Hsecond & _).
  exact Hsecond.
Defined.

(* ===================================================================== *)
(** * The record keeps the inputs apart *)
(* ===================================================================== *)

Lemma X_input_rows (f : form) :
  rows (X_input f) =
    [ [ Some (VInt (Age f)); Some (VStr (gender_label (Gender f)));
        Some (VStr (Herniated_Level f)); Some (VInt (Priffmann f));
        Some (VInt (Iwabuchi f)); Some (VInt (Modic f)); Some (VInt (Komori f));
        Some (VInt (MSU f)); Some (VInt (Spinal_canal_stenosis f));
        Some (VInt (Bull_eye f)); Some (VFloat (SS f));
        Some (VFloat (Upper_VB_Posterior_Height_CM f));
        Some (VFloat (Lower_VB_Posterior_Height_CM f));
        Some (VFloat (Initial_volume f)); Some (VInt (Months_of_Review f)) ] ].
Proof. by vm_compute. Qed.

Lemma gender_label_inj (g g' : Z) :
  mem_Z g CATS_Gender = true -> mem_Z g' CATS_Gender = true ->
  gender_label g = gender_label g' -> g = g'.
Proof.
  unfold mem_Z, CATS_Gender, gender_label, int. simpl.
  destruct (Z.eqb_spec g 0), (Z.eqb_spec g 1), (Z.eqb_spec g' 0), (Z.eqb_spec g' 1);
    simpl; try done; try lia; subst; simpl; done.
Qed.

(** Two forms whose Gender codes are among the select box's options and
    that give the same record are the same form: with the codes in their
    domain, the relabelling of Gender loses nothing, and no other field is
    changed on the way to the pipeline. *)
Theorem X_input_is_injective_on_the_gender_domain
    (f g : form)
    (Hf : mem_Z (Gender f) CATS_Gender = true)
    (Hg : mem_Z (Gender g) CATS_Gender = true)
    (Hsame : X_input f = X_input g) :
  f = g.
Proof.
  apply (f_equal rows) in Hsame. rewrite !X_input_rows in Hsame.
  destruct f, g; simpl in *. inversion Hsame; subst.
  f_equal. by apply gender_label_inj.
Qed.

(** The record of the example differs from the record of the same inputs
    with Gender 0. *)
Lemma X_input_is_injective_example :
  X_input example_form
  <> X_input {| Age := 50; Gender := 0; Herniated_Level := "L4/5"; Priffmann := 2;
                Iwabuchi := 2; Modic := 0; Komori := 2; MSU := 2;
                Spinal_canal_stenosis := 0; Bull_eye := 1; SS := decimal 300 1;
                Upper_VB_Posterior_Height_CM := decimal 25 1;
                Lower_VB_Posterior_Height_CM := decimal 24 1;
                Initial_volume := decimal 40 1; Months_of_Review := 6 |}.
Proof.
  intros Hsame.
  apply X_input_is_injective_on_the_gender_domain in Hsame; [|reflexivity..].
  discriminate Hsame.
Defined.
